(** * warehouse_system.py: a shallow embedding and its verified properties

    The program is a small warehouse information system built from six
    design patterns (factory method, builder, facade, composite, template
    method, visitor).  Each Python class becomes a module below; a method
    [C.m] of the source is the definition [C.m] here.

    - Integers ([price], [quantity], stock levels) are unbounded Python
      ints, hence [Z].
    - Strings are byte strings holding the UTF-8 text of the source.
    - Mutable objects that are shared between several owners (the
      [Inventory] and the [Database]) live in a store and are referred to
      by location, so that two owners of one inventory see each other's
      updates.
    - [print] appends to an output log kept in the same store.
    - A raised exception is a value of [Outcome]. *)

From stdpp Require Import gmap strings list fin_maps pretty.

Local Open Scope Z_scope.

(** ** Python runtime: exceptions, str(), the store, print *)

Inductive Exception :=
| ValueError (msg : string)
| AttributeError (msg : string).

Inductive Outcome (A : Type) :=
| Return (a : A)
| Raise (e : Exception).
Arguments Return {A} a.
Arguments Raise {A} e.

(** [str(n)] for an int, as an f-string placeholder formats it. *)
Definition str (n : Z) : string := pretty n.

(** The line feed, as in the literal "\n". *)
Definition LF : string := String (Ascii.ascii_of_nat 10) EmptyString.

(** [sum(xs)] for a list of ints. *)
Definition sum_ints (xs : list Z) : Z := foldr Z.add 0 xs.

(** [sep.join(lines)] *)
Definition join (sep : string) (lines : list string) : string :=
  String.concat sep lines.

(** Object identities and store locations. *)
Definition loc := nat.

(** The dict of an [Inventory]: (category, name) to quantity. *)
Abbreviation Stock := (gmap (string * string) Z).

(** A row of [Database.supplies]: the tuple (product.name, quantity). *)
Abbreviation SupplyRecord := (string * Z)%type.

Record World := mkWorld {
  inventories : gmap loc Stock;
  databases : gmap loc (list SupplyRecord);
  stdout : list string
}.

(** The attribute [stock] of the inventory object at [l], and the attribute
    [supplies] of the database object at [l].  A location that was never
    written holds a newly constructed object. *)
Definition stock_of (w : World) (l : loc) : Stock :=
  default ∅ (inventories w !! l).

Definition supplies_of (w : World) (l : loc) : list SupplyRecord :=
  default [] (databases w !! l).

(** Statements run in a state monad over the store. *)
Definition M (A : Type) : Type := World → A * World.

Definition ret {A} (a : A) : M A := λ w, (a, w).

Definition bind {A B} (m : M A) (k : A → M B) : M B :=
  λ w, let (a, w') := m w in k a w'.

Notation "'let*' x := m 'in' k" := (bind m (λ x, k))
  (at level 10, x name, m at level 100, k at level 200, only parsing).
Notation "m ;;; k" := (bind m (λ _, k))
  (at level 100, k at level 200, right associativity, only parsing).

Definition result {A} (m : M A) (w : World) : A := (m w).1.
Definition exec {A} (m : M A) (w : World) : World := (m w).2.

Definition print (line : string) : M unit :=
  λ w, (tt, mkWorld (inventories w) (databases w) (stdout w ++ [line])).

(** [l.remove(x)]: drop the first element equal to [x], or raise. *)
Fixpoint list_remove {A} (eq : A → A → bool) (x : A) (l : list A)
  : Outcome (list A) :=
  match l with
  | [] => Raise (ValueError "list.remove(x): x not in list")
  | y :: l' =>
      if eq y x then Return l'
      else match list_remove eq x l' with
           | Return l'' => Return (y :: l'')
           | Raise e => Raise e
           end
  end.

(** ** 1. Factory method *)

Module Product.

(** The concrete subclass of the object. *)
Inductive cls := Clothing | Electronics | Food.

Record t := make { class : cls; name : string; price : Z }.

Definition get_type (self : t) : string :=
  match class self with
  | Clothing => "Одежда"
  | Electronics => "Электроника"
  | Food => "Продукты"
  end.

(** What [accept] asks of its argument: a [visit] method.  The visitor is
    mutated by the call, so [visit] returns its new state. *)
Class Visitor (V : Type) := visit : V → t → V.

Definition accept {V} `{Visitor V} (self : t) (visitor : V) : V :=
  visit visitor self.

End Product.

Abbreviation ProductVisitor := Product.Visitor.

Definition Clothing (name : string) (price : Z) : Product.t :=
  Product.make Product.Clothing name price.
Definition Electronics (name : string) (price : Z) : Product.t :=
  Product.make Product.Electronics name price.
Definition Food (name : string) (price : Z) : Product.t :=
  Product.make Product.Food name price.

Module ProductFactory.

Definition create_product (product_type name : string) (price : Z)
  : Outcome Product.t :=
  if String.eqb product_type "clothing" then Return (Clothing name price)
  else if String.eqb product_type "electronics" then
    Return (Electronics name price)
  else if String.eqb product_type "food" then Return (Food name price)
  else Raise (ValueError ("Неизвестный тип товара: " +:+ product_type)).

End ProductFactory.

(** ** 2. Builder *)

Module Order.

Record t := make { products : list Product.t; packaging : option string }.

Definition init : t := make [] None.

Definition add_product (self : t) (product : Product.t) : t :=
  make (products self ++ [product]) (packaging self).

Definition set_packaging (self : t) (label : string) : t :=
  make (products self) (Some label).

End Order.

Module OrderBuilder.

Record t := make { order : Order.t }.

Definition init : t := make Order.init.

(** Both setters end in [return self]: the value returned is the builder
    after the update. *)
Definition add_product (self : t) (product : Product.t) : t :=
  make (Order.add_product (order self) product).

Definition set_packaging (self : t) (label : string) : t :=
  make (Order.set_packaging (order self) label).

Definition build (self : t) : Order.t := order self.

End OrderBuilder.

(** Every quantity stored in the dict is non-negative. *)
Definition nonneg_stock (stock : Stock) : Prop :=
  ∀ k q, stock !! k = Some q → 0 ≤ q.

(** ** Collaborators: the inventory and the database *)

Module Inventory.

(** An inventory object is its location in the store. *)
Definition t := loc.

Definition key (product : Product.t) : string * string :=
  (Product.get_type product, Product.name product).

(** [self.stock[key] = self.stock.get(key, 0) + quantity] on the dict
    itself. *)
Definition stock_add (stock : Stock) (product : Product.t) (quantity : Z)
  : Stock :=
  <[key product := default 0 (stock !! key product) + quantity]> stock.

Definition add_stock (self : t) (product : Product.t) (quantity : Z)
  : M unit :=
  λ w, (tt, mkWorld
              (<[self := stock_add (stock_of w self) product quantity]>
                 (inventories w))
              (databases w) (stdout w)).

Definition get_stock (self : t) (product : Product.t) : M Z :=
  λ w, (default 0 (stock_of w self !! key product), w).

End Inventory.

Module Database.

Definition t := loc.

Definition save_supply (self : t) (product : Product.t) (quantity : Z)
  : M unit :=
  (λ w, (tt, mkWorld (inventories w)
               (<[self := supplies_of w self
                            ++ [(Product.name product, quantity)]]>
                  (databases w))
               (stdout w))) ;;;
  print ("Данные о поставке сохранены в БД: " +:+ Product.name product
         +:+ " x" +:+ str quantity).

End Database.

(** ** 3. Facade *)

Module WarehouseFacade.

Record t := make { inventory : Inventory.t; database : Database.t }.

Definition register_supply (self : t) (product : Product.t) (quantity : Z)
  : M unit :=
  print ("Регистрация поставки: " +:+ Product.name product
         +:+ " x" +:+ str quantity) ;;;
  Inventory.add_stock (inventory self) product quantity.

Definition check_inventory (self : t) (product : Product.t) : M unit :=
  let* qty := Inventory.get_stock (inventory self) product in
  print ("Проверка наличия товара '" +:+ Product.name product
         +:+ "': " +:+ str qty +:+ " шт.").

Definition save_to_database (self : t) (product : Product.t) (quantity : Z)
  : M unit :=
  Database.save_supply (database self) product quantity.

Definition process_supply (self : t) (product : Product.t) (quantity : Z)
  : M unit :=
  print ("Обработка поставки: " +:+ Product.name product
         +:+ ", количество: " +:+ str quantity) ;;;
  register_supply self product quantity ;;;
  check_inventory self product ;;;
  save_to_database self product quantity ;;;
  print ("Поставка обработана." +:+ LF).

End WarehouseFacade.

(** ** 4. Composite *)

Module ProductComponent.

#[local] Unset Elimination Schemes.

(** A component is an object: [self] is its identity, which is what the
    default [==] of Python compares.  A group owns the list of its
    children. *)
Inductive t :=
| SingleProduct (self : loc) (product : Product.t)
| ProductGroup (self : loc) (name : string) (children : list t).
#[local] Set Elimination Schemes.

Definition id (c : t) : loc :=
  match c with
  | SingleProduct self _ => self
  | ProductGroup self _ _ => self
  end.

(** [a == b] for two components: no [__eq__] is defined, so this is
    [a is b]. *)
Definition eq (a b : t) : bool := Nat.eqb (id a) (id b).

(** [get_price]: the leaf returns [self.product.price]; the group runs
    [total = 0; for child in self.children: total += child.get_price()]. *)
Fixpoint get_price (c : t) : Z :=
  match c with
  | SingleProduct _ product => Product.price product
  | ProductGroup _ _ children =>
      fold_left (λ total child, total + get_price child) children 0
  end.

(** [accept]: the leaf forwards to its product; the group runs
    [for child in self.children: child.accept(visitor)]. *)
Fixpoint accept {V} `{ProductVisitor V} (c : t) (visitor : V) : V :=
  match c with
  | SingleProduct _ product => Product.accept product visitor
  | ProductGroup _ _ children =>
      fold_left (λ visitor child, accept child visitor) children visitor
  end.

(** [add] and [remove] exist on groups only. *)
Definition add (g : t) (component : t) : Outcome t :=
  match g with
  | ProductGroup self name children =>
      Return (ProductGroup self name (children ++ [component]))
  | SingleProduct _ _ =>
      Raise (AttributeError "'SingleProduct' object has no attribute 'add'")
  end.

Definition remove (g : t) (component : t) : Outcome t :=
  match g with
  | ProductGroup self name children =>
      match list_remove eq component children with
      | Return children' => Return (ProductGroup self name children')
      | Raise e => Raise e
      end
  | SingleProduct _ _ =>
      Raise
        (AttributeError "'SingleProduct' object has no attribute 'remove'")
  end.

(** The products at the leaves, left to right. *)
Fixpoint leaves (c : t) : list Product.t :=
  match c with
  | SingleProduct _ product => [product]
  | ProductGroup _ _ children => concat (map leaves children)
  end.

(** Induction on trees: a property of every child gives the property of
    the group. *)
Fixpoint tree_ind (P : t → Prop)
    (Hleaf : ∀ self product, P (SingleProduct self product))
    (Hgroup : ∀ self name children,
        Forall P children → P (ProductGroup self name children))
    (c : t) : P c :=
  match c with
  | SingleProduct self product => Hleaf self product
  | ProductGroup self name children =>
      Hgroup self name children
        ((fix all (l : list t) : Forall P l :=
            match l with
            | [] => Forall_nil_2 P
            | x :: l' =>
                Forall_cons_2 P x l' (tree_ind P Hleaf Hgroup x) (all l')
            end) children)
  end.

End ProductComponent.

Abbreviation SingleProduct := ProductComponent.SingleProduct.
Abbreviation ProductGroup := ProductComponent.ProductGroup.

(** ** 5. Template method *)

Module ProductReceivingProcess.

(** The steps a subclass may override. *)
Record t := make {
  scan : Product.t → M unit;
  check : Product.t → Z → M bool;
  store : Product.t → Z → M unit;
  maintenance : M unit
}.

(** The skeleton. *)
Definition receive_product (self : t) (product : Product.t) (quantity : Z)
  : M unit :=
  scan self product ;;;
  let* passed := check self product quantity in
  if (passed : bool) then
    store self product quantity ;;;
    maintenance self
  else
    print "Ошибка при приёме товара.".

(** The steps as the base class defines them; [check] is abstract. *)
Definition base_scan (product : Product.t) : M unit :=
  print ("Сканирование товара: " +:+ Product.name product).

Definition base_store (product : Product.t) (quantity : Z) : M unit :=
  print ("Размещение " +:+ str quantity +:+ " шт. товара '"
         +:+ Product.name product +:+ "' на складе").

Definition base_maintenance : M unit := ret tt.

End ProductReceivingProcess.

Module StorekeeperReceivingProcess.

Record t := make { inventory : Inventory.t }.

Definition check (self : t) (product : Product.t) (quantity : Z) : M bool :=
  if 0 <? quantity then
    print "Проверка пройдена" ;;;
    ret true
  else
    print "Проверка не пройдена: количество должно быть положительным" ;;;
    ret false.

Definition store (self : t) (product : Product.t) (quantity : Z) : M unit :=
  ProductReceivingProcess.base_store product quantity ;;;
  Inventory.add_stock (inventory self) product quantity.

Definition maintenance (self : t) : M unit :=
  print "Техобслуживание после приёма товара (если необходимо)".

(** The object seen as a [ProductReceivingProcess]: [scan] is inherited,
    the other three steps are overridden. *)
Definition upcast (self : t) : ProductReceivingProcess.t :=
  ProductReceivingProcess.make
    ProductReceivingProcess.base_scan
    (check self) (store self) (maintenance self).

Definition receive_product (self : t) : Product.t → Z → M unit :=
  ProductReceivingProcess.receive_product (upcast self).

End StorekeeperReceivingProcess.

(** ** 6. Visitor *)

Module CostCalculatorVisitor.

Record t := make { total_cost : Z }.

Definition init : t := make 0.

#[global] Instance visit : ProductVisitor t :=
  λ self product, make (total_cost self + Product.price product).

End CostCalculatorVisitor.

Module ReportVisitor.

Record t := make { report_lines : list string }.

Definition init : t := make [].

Definition line (product : Product.t) : string :=
  "Товар: " +:+ Product.name product +:+ ", Тип: "
  +:+ Product.get_type product +:+ ", Цена: "
  +:+ str (Product.price product).

#[global] Instance visit : ProductVisitor t :=
  λ self product, make (report_lines self ++ [line product]).

Definition get_report (self : t) : string := join LF (report_lines self).

(** The lines a new visitor holds after [c.accept(visitor)]. *)
Definition lines_of (c : ProductComponent.t) : list string :=
  report_lines (ProductComponent.accept c init).

End ReportVisitor.

(** ** Users of the system *)

Module Storekeeper.

Record t := make {
  facade : WarehouseFacade.t;
  receiving_process : ProductReceivingProcess.t
}.

Definition receive_supply (self : t) (product : Product.t) (quantity : Z)
  : M unit :=
  print "Кладовщик начинает приём поставки..." ;;;
  ProductReceivingProcess.receive_product
    (receiving_process self) product quantity ;;;
  WarehouseFacade.process_supply (facade self) product quantity.

Definition check_product_availability (self : t) (product : Product.t)
  : M unit :=
  WarehouseFacade.check_inventory (facade self) product.

End Storekeeper.

Module Administrator.

Record t := make { inventory : Inventory.t }.

Definition update_stock (self : t) (product : Product.t) (quantity : Z)
  : M unit :=
  print ("Администратор обновляет данные о наличии товара: "
         +:+ Product.name product +:+ " x" +:+ str quantity) ;;;
  Inventory.add_stock (inventory self) product quantity.

End Administrator.

Module WarehouseManager.

Record t := make { inventory : Inventory.t }.

(** One report visitor goes through all the components, then the report is
    printed. *)
Definition generate_report (self : t)
    (product_components : list ProductComponent.t) : M unit :=
  print "Менеджер формирует отчёт по складу:" ;;;
  let report_visitor :=
    fold_left (λ visitor component, ProductComponent.accept component visitor)
      product_components ReportVisitor.init in
  print (ReportVisitor.get_report report_visitor).

Definition perform_maintenance (self : t) : M unit :=
  print "Менеджер выполняет техобслуживание склада".

End WarehouseManager.

(** [Order.__str__]: the names of the products joined by a comma and a
    space, then the packaging as an f-string formats it, [None] included. *)
Definition Order_str (self : Order.t) : string :=
  "Заказ: [" +:+ join ", " (Product.name <$> Order.products self)
  +:+ "], Упаковка: "
  +:+ match Order.packaging self with
      | Some label => label
      | None => "None"
      end.

(** ** The objects built by [main] *)

Module Demo.

Definition tshirt : Product.t := Clothing "Футболка" 500.
Definition laptop : Product.t := Electronics "Ноутбук" 50000.
Definition apple : Product.t := Food "Яблоко" 50.

Definition box1 : ProductComponent.t :=
  ProductGroup 1%nat "Коробка 1"
    [SingleProduct 2%nat tshirt; SingleProduct 3%nat apple].

Definition box2 : ProductComponent.t :=
  ProductGroup 4%nat "Коробка 2" [SingleProduct 5%nat laptop].

Definition shipment : ProductComponent.t :=
  ProductGroup 6%nat "Партия товаров" [box1; box2].


(** The store before anything ran. *)
Definition world0 : World := mkWorld ∅ ∅ [].

End Demo.

(** * Verified properties *)

(** ** Factory *)

Section Factory.

Import ProductFactory.

(** C2.  For each of the kind tags clothing, electronics and food, and
    every name and price, [create_product] returns a product of that name
    and price whose category label is the label of the kind; for every
    other tag it raises [ValueError] and returns no product.  The function
    does not touch the store. *)
Theorem create_product_by_kind (kind name : string) (price : Z) :
  (kind = "clothing" →
     ∃ p, create_product kind name price = Return p
          ∧ Product.get_type p = "Одежда"
          ∧ Product.name p = name ∧ Product.price p = price)
  ∧ (kind = "electronics" →
     ∃ p, create_product kind name price = Return p
          ∧ Product.get_type p = "Электроника"
          ∧ Product.name p = name ∧ Product.price p = price)
  ∧ (kind = "food" →
     ∃ p, create_product kind name price = Return p
          ∧ Product.get_type p = "Продукты"
          ∧ Product.name p = name ∧ Product.price p = price)
  ∧ (kind ≠ "clothing" → kind ≠ "electronics" → kind ≠ "food" →
     create_product kind name price
     = Raise (ValueError ("Неизвестный тип товара: " +:+ kind))).
Proof.
  repeat split.
  - intros ->. by eexists.
  - intros ->. by eexists.
  - intros ->. by eexists.
  - intros Hc He Hf. unfold create_product.
    apply String.eqb_neq in Hc, He, Hf. by rewrite Hc, He, Hf.
Qed.

Lemma create_product_by_kind_witness :
  (∃ p, create_product "food" "Яблоко" 50 = Return p
        ∧ Product.get_type p = "Продукты"
        ∧ Product.name p = "Яблоко" ∧ Product.price p = 50)
  ∧ create_product "toys" "Мяч" 120
    = Raise (ValueError "Неизвестный тип товара: toys").
Proof.
  split.
  - exact (proj1 (proj2 (proj2 (create_product_by_kind "food" "Яблоко" 50)))
             eq_refl).
  - apply (proj2 (proj2 (proj2 (create_product_by_kind "toys" "Мяч" 120))));
      discriminate.
Defined.

End Factory.

(** ** Builder *)

Section Builder.

Import OrderBuilder.

(** C8.  On a new builder, add_product(a).add_product(b)
    .set_packaging(label).build() returns an order whose products are
    exactly [a; b], in that order, and whose packaging is the label. *)
Theorem builder_round_trip (a b : Product.t) (label : string) :
  build (set_packaging (add_product (add_product init a) b) label)
  = Order.make [a; b] (Some label).
Proof. reflexivity. Qed.

End Builder.

(** ** Composite and visitors *)

Section Composite.

Import ProductComponent.

Lemma fold_left_add (f : t → Z) (l : list t) (total : Z) :
  fold_left (λ total child, total + f child) l total
  = total + sum_ints (f <$> l).
Proof.
  unfold sum_ints. revert total.
  induction l as [|c l IH]; intros total; csimpl.
  - lia.
  - rewrite IH. lia.
Qed.

Lemma sum_ints_app (xs ys : list Z) :
  sum_ints (xs ++ ys) = sum_ints xs + sum_ints ys.
Proof. unfold sum_ints. induction xs as [|x xs IH]; simpl; lia. Qed.


Lemma get_price_leaves (c : t) :
  get_price c = sum_ints (Product.price <$> leaves c).
Proof.
  induction c as [self product|self name children IH] using tree_ind.
  - unfold sum_ints. simpl. lia.
  - cbn [get_price leaves]. rewrite fold_left_add, Z.add_0_l.
    induction IH as [|c l Hc _ IHl]; [done|].
    rewrite fmap_cons, map_cons, concat_cons, fmap_app, sum_ints_app.
    rewrite <- Hc, <- IHl. reflexivity.
Qed.

(** C3.  The price of a group is the sum of the prices of its children,
    whatever their nesting; a group without children costs zero; and so
    the price of any tree is the sum of the prices at its leaves. *)
Theorem group_price_is_sum_of_children :
  (∀ self name children,
      get_price (ProductGroup self name children)
      = sum_ints (get_price <$> children))
  ∧ (∀ self name, get_price (ProductGroup self name []) = 0)
  ∧ (∀ c, get_price c = sum_ints (Product.price <$> leaves c)).
Proof.
  split; [|split].
  - intros self name children. simpl. rewrite fold_left_add. lia.
  - reflexivity.
  - apply get_price_leaves.
Qed.

(** Whatever the visitor, a traversal visits the leaves left to right. *)
Lemma accept_leaves {V} `{ProductVisitor V} (c : t) (visitor : V) :
  accept c visitor = fold_left Product.visit (leaves c) visitor.
Proof.
  revert visitor.
  induction c as [self product|self name children IH] using tree_ind;
    intros visitor.
  - reflexivity.
  - simpl. revert visitor.
    induction IH as [|c l Hc _ IHl]; intros visitor; simpl; [done|].
    rewrite fold_left_app, <- Hc. apply IHl.
Qed.




Lemma string_app_assoc (a b c : string) : (a +:+ b) +:+ c = a +:+ b +:+ c.
Proof.
  induction a as [|x a IH]; [done|].
  change (String x ((a +:+ b) +:+ c) = String x (a +:+ b +:+ c)).
  by rewrite IH.
Qed.

Lemma join_cons (sep x y : string) (l : list string) :
  join sep (x :: y :: l) = x +:+ sep +:+ join sep (y :: l).
Proof. reflexivity. Qed.

(** Joining two non-empty blocks of lines puts the first block, one
    separator, then the second block. *)
Lemma join_app (sep : string) (l1 l2 : list string) :
  l1 ≠ [] → l2 ≠ [] →
  join sep (l1 ++ l2) = join sep l1 +:+ sep +:+ join sep l2.
Proof.
  intros H1 H2. induction l1 as [|x [|y l1] IH]; [done| |].
  - destruct l2 as [|z l2]; [done|]. reflexivity.
  - change ((x :: y :: l1) ++ l2) with (x :: y :: (l1 ++ l2)).
    rewrite !join_cons, !string_app_assoc. do 2 f_equal.
    by apply IH.
Qed.

Lemma report_fold (ps : list Product.t) (v : ReportVisitor.t) :
  ReportVisitor.report_lines (fold_left Product.visit ps v)
  = ReportVisitor.report_lines v ++ (ReportVisitor.line <$> ps).
Proof.
  revert v. induction ps as [|p ps IH]; intros v; csimpl.
  - by rewrite app_nil_r.
  - rewrite IH. simpl. by rewrite <- app_assoc.
Qed.

Lemma lines_of_leaves (c : t) :
  ReportVisitor.lines_of c = ReportVisitor.line <$> leaves c.
Proof. unfold ReportVisitor.lines_of. by rewrite accept_leaves, report_fold. Qed.

Lemma lines_of_group (self : loc) (name : string) (children : list t) :
  ReportVisitor.lines_of (ProductGroup self name children)
  = concat (ReportVisitor.lines_of <$> children).
Proof.
  rewrite lines_of_leaves. cbn [leaves].
  induction children as [|c l IH]; [done|].
  rewrite map_cons, concat_cons, fmap_app, IH, fmap_cons, concat_cons.
  by rewrite lines_of_leaves.
Qed.

(** C5.  A report visitor accepted by a group with children [A; B] holds
    the lines of A followed by the lines of B, and [get_report] joins them
    in that order; when both have a leaf the report is A's report, a line
    feed, then B's report.  For any list of children the lines are those
    of the children in list order, and the lines of any tree are those of
    its leaves from left to right. *)
Theorem report_follows_child_order (self : loc) (name : string) (A B : t) :
  ReportVisitor.lines_of (ProductGroup self name [A; B])
  = ReportVisitor.lines_of A ++ ReportVisitor.lines_of B
  ∧ ReportVisitor.get_report
      (accept (ProductGroup self name [A; B]) ReportVisitor.init)
    = join LF (ReportVisitor.lines_of A ++ ReportVisitor.lines_of B)
  ∧ (leaves A ≠ [] → leaves B ≠ [] →
     ReportVisitor.get_report
       (accept (ProductGroup self name [A; B]) ReportVisitor.init)
     = ReportVisitor.get_report (accept A ReportVisitor.init)
       +:+ LF +:+ ReportVisitor.get_report (accept B ReportVisitor.init))
  ∧ (∀ children,
       ReportVisitor.lines_of (ProductGroup self name children)
       = concat (ReportVisitor.lines_of <$> children))
  ∧ (∀ c, ReportVisitor.lines_of c = ReportVisitor.line <$> leaves c).
Proof.
  assert (HAB : ReportVisitor.lines_of (ProductGroup self name [A; B])
                = ReportVisitor.lines_of A ++ ReportVisitor.lines_of B).
  { rewrite lines_of_group. csimpl. by rewrite app_nil_r. }
  assert (Hreport : ReportVisitor.get_report
      (accept (ProductGroup self name [A; B]) ReportVisitor.init)
    = join LF (ReportVisitor.lines_of A ++ ReportVisitor.lines_of B)).
  { unfold ReportVisitor.get_report.
    fold (ReportVisitor.lines_of (ProductGroup self name [A; B])).
    by rewrite HAB. }
  split; [exact HAB|]. split; [exact Hreport|].
  split; [|split; [apply lines_of_group | apply lines_of_leaves]].
  intros HA HB. rewrite Hreport.
  apply join_app; rewrite lines_of_leaves; by intros ?%fmap_nil_inv.
Qed.

Lemma report_follows_child_order_witness :
  ReportVisitor.get_report
    (accept Demo.shipment ReportVisitor.init)
  = ReportVisitor.get_report (accept Demo.box1 ReportVisitor.init)
    +:+ LF +:+ ReportVisitor.get_report (accept Demo.box2 ReportVisitor.init).
Proof.
  apply (report_follows_child_order
           6%nat "Партия товаров" Demo.box1 Demo.box2);
    discriminate.
Defined.

(** The report that [main] prints for the shipment. *)
Example shipment_report :
  ReportVisitor.get_report (accept Demo.shipment ReportVisitor.init)
  = "Товар: Футболка, Тип: Одежда, Цена: 500" +:+ LF
    +:+ "Товар: Яблоко, Тип: Продукты, Цена: 50" +:+ LF
    +:+ "Товар: Ноутбук, Тип: Электроника, Цена: 50000".
Proof. vm_compute. reflexivity. Qed.

End Composite.

(** ** Removing a child *)

Section Remove.

Import ProductComponent.

Context {A : Type} (same : A → A → bool).

Lemma list_remove_absent (x : A) (l : list A) :
  (∀ y, y ∈ l → same y x = false) →
  list_remove same x l = Raise (ValueError "list.remove(x): x not in list").
Proof.
  induction l as [|y l IH]; intros Hall; simpl; [done|].
  rewrite (Hall y) by apply list_elem_of_here.
  rewrite IH; [done|]. intros z Hz. apply Hall. by apply list_elem_of_further.
Qed.

Lemma list_remove_first (x y : A) (before after : list A) :
  (∀ b, b ∈ before → same b x = false) → same y x = true →
  list_remove same x (before ++ y :: after) = Return (before ++ after).
Proof.
  intros Hbefore Hy. induction before as [|b before IH]; simpl.
  - by rewrite Hy.
  - rewrite (Hbefore b) by apply list_elem_of_here.
    rewrite IH; [done|].
    intros z Hz. apply Hbefore. by apply list_elem_of_further.
Qed.

Lemma first_occurrence (x : A) (l : list A) :
  (∃ y, y ∈ l ∧ same y x = true) →
  ∃ before y after,
    l = before ++ y :: after ∧ same y x = true
    ∧ ∀ b, b ∈ before → same b x = false.
Proof.
  induction l as [|z l IH]; intros (y & Hin & Hy).
  - by apply elem_of_nil in Hin.
  - destruct (same z x) eqn:Hz.
    + exists [], z, l. split; [done|]. split; [done|].
      intros b Hb. by apply elem_of_nil in Hb.
    + apply elem_of_cons in Hin as [->|Hin]; [congruence|].
      destruct IH as (before & y' & after & -> & Hy' & Hbefore); [eauto|].
      exists (z :: before), y', after. split; [done|]. split; [done|].
      intros b [->|Hb]%elem_of_cons; auto.
Qed.

End Remove.

Section RemoveChild.

Import ProductComponent.

(** C10.  [remove] on a group raises [ValueError] when no child is the
    given component.  When the children are [before ++ c :: after] with
    [c] the component and no element of [before] the component, the call
    returns the group with children [before ++ after]: the first
    occurrence is dropped and all the other children keep their order.
    Whenever some child is the component, such a first occurrence
    exists. *)
Theorem remove_first_occurrence_or_raise
    (self : loc) (name : string) (children : list t) (component : t) :
  ((∀ c, c ∈ children → eq c component = false) →
     remove (ProductGroup self name children) component
     = Raise (ValueError "list.remove(x): x not in list"))
  ∧ (∀ before c after,
       children = before ++ c :: after →
       eq c component = true →
       (∀ b, b ∈ before → eq b component = false) →
       remove (ProductGroup self name children) component
       = Return (ProductGroup self name (before ++ after)))
  ∧ ((∃ c, c ∈ children ∧ eq c component = true) →
     ∃ before c after,
       children = before ++ c :: after ∧ eq c component = true
       ∧ ∀ b, b ∈ before → eq b component = false).
Proof.
  split; [|split].
  - intros Habsent. simpl. by rewrite list_remove_absent.
  - intros before c after -> Hc Hbefore. simpl.
    by rewrite (list_remove_first eq component c).
  - apply first_occurrence.
Qed.

Lemma remove_first_occurrence_or_raise_witness :
  remove Demo.box1 (SingleProduct 7%nat Demo.tshirt)
  = Raise (ValueError "list.remove(x): x not in list")
  ∧ remove
      (ProductGroup 1%nat "Коробка 1"
         [SingleProduct 3%nat Demo.apple; SingleProduct 2%nat Demo.tshirt;
          SingleProduct 5%nat Demo.laptop; SingleProduct 2%nat Demo.tshirt])
      (SingleProduct 2%nat Demo.tshirt)
    = Return
        (ProductGroup 1%nat "Коробка 1"
           [SingleProduct 3%nat Demo.apple; SingleProduct 5%nat Demo.laptop;
            SingleProduct 2%nat Demo.tshirt]).
Proof.
  split.
  - apply (remove_first_occurrence_or_raise 1%nat "Коробка 1").
    intros c Hc. repeat (apply elem_of_cons in Hc as [->|Hc]; [done|]).
    by apply elem_of_nil in Hc.
  - apply (proj1 (proj2 (remove_first_occurrence_or_raise 1%nat "Коробка 1"
             [SingleProduct 3%nat Demo.apple; SingleProduct 2%nat Demo.tshirt;
              SingleProduct 5%nat Demo.laptop; SingleProduct 2%nat Demo.tshirt]
             (SingleProduct 2%nat Demo.tshirt)))
           [SingleProduct 3%nat Demo.apple]
           (SingleProduct 2%nat Demo.tshirt)
           [SingleProduct 5%nat Demo.laptop; SingleProduct 2%nat Demo.tshirt]);
      [reflexivity | reflexivity |].
    intros b Hb. apply list_elem_of_singleton in Hb as ->. reflexivity.
Defined.

End RemoveChild.

(** ** The inventory ledger *)

(** *** Reading the store after one statement *)

Section Store.

Import Inventory.

Lemma bind_exec {A B} (m : M A) (k : A → M B) (w : World) :
  exec (bind m k) w = exec (k (result m w)) (exec m w).
Proof. unfold exec, result, bind. by destruct (m w). Qed.

Lemma inventories_print (line : string) (w : World) :
  inventories (exec (print line) w) = inventories w.
Proof. reflexivity. Qed.

Lemma databases_print (line : string) (w : World) :
  databases (exec (print line) w) = databases w.
Proof. reflexivity. Qed.

Lemma stdout_print (line : string) (w : World) :
  stdout (exec (print line) w) = stdout w ++ [line].
Proof. reflexivity. Qed.

Lemma stock_of_print (line : string) (w : World) (l : loc) :
  stock_of (exec (print line) w) l = stock_of w l.
Proof. reflexivity. Qed.

Lemma supplies_of_print (line : string) (w : World) (l : loc) :
  supplies_of (exec (print line) w) l = supplies_of w l.
Proof. reflexivity. Qed.

Lemma inventories_add_stock (self : t) (product : Product.t) (quantity : Z)
    (w : World) :
  inventories (exec (add_stock self product quantity) w)
  = <[self := stock_add (stock_of w self) product quantity]> (inventories w).
Proof. reflexivity. Qed.

Lemma databases_add_stock (self : t) (product : Product.t) (quantity : Z)
    (w : World) :
  databases (exec (add_stock self product quantity) w) = databases w.
Proof. reflexivity. Qed.

Lemma stdout_add_stock (self : t) (product : Product.t) (quantity : Z)
    (w : World) :
  stdout (exec (add_stock self product quantity) w) = stdout w.
Proof. reflexivity. Qed.

Lemma supplies_of_add_stock (self : t) (product : Product.t) (quantity : Z)
    (w : World) (l : loc) :
  supplies_of (exec (add_stock self product quantity) w) l = supplies_of w l.
Proof. reflexivity. Qed.

Lemma stock_of_add_stock (self : t) (product : Product.t) (quantity : Z)
    (w : World) :
  stock_of (exec (add_stock self product quantity) w) self
  = stock_add (stock_of w self) product quantity.
Proof.
  unfold stock_of at 1. rewrite inventories_add_stock.
  by rewrite lookup_insert_eq.
Qed.

Lemma stock_of_add_stock_ne (self l : t) (product : Product.t)
    (quantity : Z) (w : World) :
  l ≠ self →
  stock_of (exec (add_stock self product quantity) w) l = stock_of w l.
Proof.
  intros Hl. unfold stock_of. rewrite inventories_add_stock.
  by rewrite lookup_insert_ne.
Qed.

Lemma inventories_save_supply (self : Database.t) (product : Product.t)
    (quantity : Z) (w : World) :
  inventories (exec (Database.save_supply self product quantity) w)
  = inventories w.
Proof. reflexivity. Qed.

Lemma stock_of_save_supply (self : Database.t) (product : Product.t)
    (quantity : Z) (w : World) (l : loc) :
  stock_of (exec (Database.save_supply self product quantity) w) l
  = stock_of w l.
Proof. reflexivity. Qed.

Lemma databases_save_supply (self : Database.t) (product : Product.t)
    (quantity : Z) (w : World) :
  databases (exec (Database.save_supply self product quantity) w)
  = <[self := supplies_of w self ++ [(Product.name product, quantity)]]>
      (databases w).
Proof. reflexivity. Qed.

Lemma supplies_of_save_supply (self : Database.t) (product : Product.t)
    (quantity : Z) (w : World) :
  supplies_of (exec (Database.save_supply self product quantity) w) self
  = supplies_of w self ++ [(Product.name product, quantity)].
Proof.
  unfold supplies_of at 1. rewrite databases_save_supply.
  by rewrite lookup_insert_eq.
Qed.

Lemma stdout_save_supply (self : Database.t) (product : Product.t)
    (quantity : Z) (w : World) :
  stdout (exec (Database.save_supply self product quantity) w)
  = stdout w
    ++ ["Данные о поставке сохранены в БД: " +:+ Product.name product
        +:+ " x" +:+ str quantity].
Proof. reflexivity. Qed.

Lemma result_get_stock (self : t) (product : Product.t) (w : World) :
  result (get_stock self product) w
  = default 0 (stock_of w self !! key product).
Proof. reflexivity. Qed.

Lemma exec_register_supply (self : WarehouseFacade.t) (product : Product.t)
    (quantity : Z) (w : World) :
  exec (WarehouseFacade.register_supply self product quantity) w
  = exec (add_stock (WarehouseFacade.inventory self) product quantity)
      (exec (print ("Регистрация поставки: " +:+ Product.name product
                    +:+ " x" +:+ str quantity)) w).
Proof. reflexivity. Qed.

Lemma exec_check_inventory (self : WarehouseFacade.t) (product : Product.t)
    (w : World) :
  exec (WarehouseFacade.check_inventory self product) w
  = exec (print ("Проверка наличия товара '" +:+ Product.name product
                 +:+ "': "
                 +:+ str (result
                            (get_stock (WarehouseFacade.inventory self)
                               product) w)
                 +:+ " шт.")) w.
Proof. reflexivity. Qed.

Lemma exec_base_scan (product : Product.t) (w : World) :
  exec (ProductReceivingProcess.base_scan product) w
  = exec (print ("Сканирование товара: " +:+ Product.name product)) w.
Proof. reflexivity. Qed.

Lemma exec_base_store (product : Product.t) (quantity : Z) (w : World) :
  exec (ProductReceivingProcess.base_store product quantity) w
  = exec (print ("Размещение " +:+ str quantity +:+ " шт. товара '"
                 +:+ Product.name product +:+ "' на складе")) w.
Proof. reflexivity. Qed.

End Store.

Create Rewrite HintDb store.

#[global] Hint Rewrite
  exec_register_supply exec_check_inventory exec_base_scan exec_base_store
  inventories_print databases_print stdout_print stock_of_print
  supplies_of_print
  inventories_add_stock databases_add_stock stdout_add_stock
  supplies_of_add_stock stock_of_add_stock
  inventories_save_supply stock_of_save_supply databases_save_supply
  supplies_of_save_supply stdout_save_supply
  result_get_stock : store.

Section Ledger.

Import Inventory.

Lemma stock_add_lookup (stock : Stock) (product : Product.t) (quantity : Z) :
  stock_add stock product quantity !! key product
  = Some (default 0 (stock !! key product) + quantity).
Proof. apply lookup_insert_eq. Qed.

Lemma stock_add_lookup_ne (stock : Stock) (product : Product.t)
    (quantity : Z) (k : string * string) :
  k ≠ key product → stock_add stock product quantity !! k = stock !! k.
Proof. intros Hk. by apply lookup_insert_ne. Qed.

Lemma get_stock_add_stock (self : t) (product : Product.t) (quantity : Z)
    (w : World) :
  result (get_stock self product) (exec (add_stock self product quantity) w)
  = result (get_stock self product) w + quantity.
Proof.
  unfold result, get_stock. cbn [fst].
  by rewrite stock_of_add_stock, stock_add_lookup.
Qed.

Lemma get_stock_add_stock_ne (self : t) (product other : Product.t)
    (quantity : Z) (w : World) :
  key other ≠ key product →
  result (get_stock self other) (exec (add_stock self product quantity) w)
  = result (get_stock self other) w.
Proof.
  intros Hk. unfold result, get_stock. cbn [fst].
  by rewrite stock_of_add_stock, stock_add_lookup_ne.
Qed.

Lemma nonneg_stock_add (stock : Stock) (product : Product.t) (quantity : Z) :
  0 ≤ quantity → nonneg_stock stock →
  nonneg_stock (stock_add stock product quantity).
Proof.
  intros Hq Hstock k q. destruct (decide (k = key product)) as [->|Hk].
  - rewrite stock_add_lookup. intros [= <-].
    destruct (stock !! key product) as [q0|] eqn:Hq0; simpl; [|lia].
    specialize (Hstock _ _ Hq0). lia.
  - rewrite stock_add_lookup_ne by done. apply Hstock.
Qed.

(** C7, as the code has it.  [add_stock] adds the quantity it is given to
    the entry of the product and leaves every other entry alone, and
    [get_stock] changes nothing and returns zero for an absent key.  The
    quantity is not validated: when it is non-negative, non-negative
    stocks stay non-negative and no stored quantity decreases. *)
Theorem ledger_monotone_for_nonneg_quantity
    (self : t) (product : Product.t) (quantity : Z) (w : World) :
  result (get_stock self product) (exec (add_stock self product quantity) w)
  = result (get_stock self product) w + quantity
  ∧ (∀ other, key other ≠ key product →
       result (get_stock self other)
         (exec (add_stock self product quantity) w)
       = result (get_stock self other) w)
  ∧ (0 ≤ quantity → nonneg_stock (stock_of w self) →
     nonneg_stock (stock_of (exec (add_stock self product quantity) w) self))
  ∧ (0 ≤ quantity → ∀ p,
       result (get_stock self p) w
       ≤ result (get_stock self p)
           (exec (add_stock self product quantity) w))
  ∧ (∀ p, exec (get_stock self p) w = w)
  ∧ (∀ p, stock_of w self !! key p = None →
       result (get_stock self p) w = 0).
Proof.
  split; [apply get_stock_add_stock|].
  split; [intros other; apply get_stock_add_stock_ne|].
  split; [|split; [|split]].
  - intros Hq Hstock. rewrite stock_of_add_stock. by apply nonneg_stock_add.
  - intros Hq p. destruct (decide (key p = key product)) as [Hk|Hk].
    + unfold result, get_stock. cbn [fst].
      rewrite stock_of_add_stock, Hk, stock_add_lookup. simpl. lia.
    + rewrite get_stock_add_stock_ne by done. lia.
  - reflexivity.
  - intros p Hp. unfold result, get_stock. cbn [fst]. by rewrite Hp.
Qed.

Lemma ledger_monotone_for_nonneg_quantity_witness :
  nonneg_stock
    (stock_of (exec (add_stock 0%nat Demo.apple 100) Demo.world0) 0%nat)
  ∧ result (get_stock 0%nat Demo.apple) Demo.world0
    ≤ result (get_stock 0%nat Demo.apple)
        (exec (add_stock 0%nat Demo.apple 100) Demo.world0)
  ∧ result (get_stock 0%nat Demo.laptop) Demo.world0 = 0.
Proof.
  pose proof (ledger_monotone_for_nonneg_quantity
                0%nat Demo.apple 100 Demo.world0)
    as (_ & _ & Hinv & Hmono & _ & Habsent).
  split; [|split].
  - apply Hinv; [lia|]. intros k q Hk. discriminate Hk.
  - apply Hmono. lia.
  - apply Habsent. reflexivity.
Defined.

(** C7 as stated fails: a negative quantity is accepted, the stored
    quantity decreases and becomes negative. *)
Lemma add_stock_negative_quantity :
  nonneg_stock
    (stock_of (exec (add_stock 0%nat Demo.apple 3) Demo.world0) 0%nat)
  ∧ result (get_stock 0%nat Demo.apple)
      (exec (add_stock 0%nat Demo.apple 3) Demo.world0) = 3
  ∧ result (get_stock 0%nat Demo.apple)
      (exec (add_stock 0%nat Demo.apple (-5))
         (exec (add_stock 0%nat Demo.apple 3) Demo.world0)) = -2
  ∧ ¬ nonneg_stock
        (stock_of
           (exec (add_stock 0%nat Demo.apple (-5))
              (exec (add_stock 0%nat Demo.apple 3) Demo.world0)) 0%nat).
Proof.
  split; [|split; [|split]].
  - rewrite stock_of_add_stock. apply nonneg_stock_add; [lia|].
    intros k q Hk. discriminate Hk.
  - by rewrite get_stock_add_stock.
  - by rewrite !get_stock_add_stock.
  - intros Hnonneg.
    specialize (Hnonneg (key Demo.apple) (-2)).
    rewrite stock_of_add_stock, stock_add_lookup in Hnonneg.
    rewrite stock_of_add_stock, stock_add_lookup in Hnonneg.
    specialize (Hnonneg eq_refl). lia.
Qed.

End Ledger.

(** ** Receiving a product *)

Section Receiving.

Import Inventory.

(** With a positive quantity the skeleton runs scan, check, store and
    maintenance. *)
Lemma receive_product_passed (inventory : Inventory.t) (product : Product.t)
    (quantity : Z) (w : World) :
  0 < quantity →
  exec (StorekeeperReceivingProcess.receive_product
          (StorekeeperReceivingProcess.make inventory) product quantity) w
  = exec (print "Техобслуживание после приёма товара (если необходимо)")
      (exec (add_stock inventory product quantity)
         (exec (ProductReceivingProcess.base_store product quantity)
            (exec (print "Проверка пройдена")
               (exec (ProductReceivingProcess.base_scan product) w)))).
Proof.
  intros Hq.
  unfold StorekeeperReceivingProcess.receive_product,
    ProductReceivingProcess.receive_product, exec, bind. simpl.
  unfold StorekeeperReceivingProcess.check, bind.
  apply Z.ltb_lt in Hq. rewrite Hq. reflexivity.
Qed.

(** Otherwise it stops after the check. *)
Lemma receive_product_failed (inventory : Inventory.t) (product : Product.t)
    (quantity : Z) (w : World) :
  quantity ≤ 0 →
  exec (StorekeeperReceivingProcess.receive_product
          (StorekeeperReceivingProcess.make inventory) product quantity) w
  = exec (print "Ошибка при приёме товара.")
      (exec (print
         "Проверка не пройдена: количество должно быть положительным")
         (exec (ProductReceivingProcess.base_scan product) w)).
Proof.
  intros Hq.
  unfold StorekeeperReceivingProcess.receive_product,
    ProductReceivingProcess.receive_product, exec, bind. simpl.
  unfold StorekeeperReceivingProcess.check, bind.
  apply Z.ltb_ge in Hq. rewrite Hq. reflexivity.
Qed.

(** C1.  The receiving process of the storekeeper, run with a positive
    quantity, raises the stock of the product by that quantity, touches
    no other entry, inventory or database, and goes through scan, passed
    check, store and maintenance in that order.  Run with a quantity that
    is zero or negative it leaves every inventory and database as it was
    and goes through scan, failed check and the failure message. *)
Theorem receive_product_checks_quantity
    (inventory : Inventory.t) (product : Product.t) (quantity : Z)
    (w : World) :
  let self := StorekeeperReceivingProcess.make inventory in
  let w' :=
    exec (StorekeeperReceivingProcess.receive_product self product quantity)
      w in
  (0 < quantity →
     result (get_stock inventory product) w'
     = result (get_stock inventory product) w + quantity
     ∧ (∀ other, key other ≠ key product →
          result (get_stock inventory other) w'
          = result (get_stock inventory other) w)
     ∧ (∀ l, l ≠ inventory → stock_of w' l = stock_of w l)
     ∧ databases w' = databases w
     ∧ stdout w'
       = stdout w
         ++ ["Сканирование товара: " +:+ Product.name product;
             "Проверка пройдена";
             "Размещение " +:+ str quantity +:+ " шт. товара '"
             +:+ Product.name product +:+ "' на складе";
             "Техобслуживание после приёма товара (если необходимо)"])
  ∧ (quantity ≤ 0 →
     inventories w' = inventories w
     ∧ databases w' = databases w
     ∧ stdout w'
       = stdout w
         ++ ["Сканирование товара: " +:+ Product.name product;
             "Проверка не пройдена: количество должно быть положительным";
             "Ошибка при приёме товара."]).
Proof.
  intros self w'. subst self w'. split; intros Hq.
  - rewrite receive_product_passed by done.
    split; [|split; [|split; [|split]]].
    + autorewrite with store. by rewrite stock_add_lookup.
    + intros other Hk. autorewrite with store.
      by rewrite stock_add_lookup_ne.
    + intros l Hl. autorewrite with store.
      rewrite stock_of_add_stock_ne by done. by autorewrite with store.
    + by autorewrite with store.
    + autorewrite with store. by rewrite <- !app_assoc.
  - rewrite receive_product_failed by done.
    split; [|split]; autorewrite with store; [done..|].
    by rewrite <- !app_assoc.
Qed.

Lemma receive_product_checks_quantity_witness :
  result (get_stock 0%nat Demo.tshirt)
    (exec (StorekeeperReceivingProcess.receive_product
             (StorekeeperReceivingProcess.make 0%nat) Demo.tshirt 10)
       Demo.world0)
  = result (get_stock 0%nat Demo.tshirt) Demo.world0 + 10
  ∧ inventories
      (exec (StorekeeperReceivingProcess.receive_product
               (StorekeeperReceivingProcess.make 0%nat) Demo.tshirt (-3))
         Demo.world0)
    = inventories Demo.world0.
Proof.
  split.
  - apply (proj1 (receive_product_checks_quantity
                    0%nat Demo.tshirt 10 Demo.world0)). lia.
  - apply (proj2 (receive_product_checks_quantity
                    0%nat Demo.tshirt (-3) Demo.world0)). lia.
Defined.

End Receiving.

(** ** The facade and the storekeeper *)

Section Supply.

Import Inventory.

Lemma process_supply_steps (self : WarehouseFacade.t) (product : Product.t)
    (quantity : Z) (w : World) :
  exec (WarehouseFacade.process_supply self product quantity) w
  = exec (print ("Поставка обработана." +:+ LF))
      (exec (Database.save_supply
               (WarehouseFacade.database self) product quantity)
         (exec (WarehouseFacade.check_inventory self product)
            (exec (WarehouseFacade.register_supply self product quantity)
               (exec (print ("Обработка поставки: "
                             +:+ Product.name product
                             +:+ ", количество: " +:+ str quantity))
                  w)))).
Proof. reflexivity. Qed.

(** C6.  [process_supply] changes the inventories in one place only: the
    entry of the product in the inventory of the facade, raised by the
    quantity.  It then reads the stock back (the line it prints shows the
    raised value) and appends the one record (name, quantity) to the
    database of the facade; no other database changes.  The five lines it
    prints come in the order of these steps. *)
Theorem process_supply_effects
    (self : WarehouseFacade.t) (product : Product.t) (quantity : Z)
    (w : World) :
  let inventory := WarehouseFacade.inventory self in
  let database := WarehouseFacade.database self in
  let w' := exec (WarehouseFacade.process_supply self product quantity) w in
  inventories w'
  = <[inventory := stock_add (stock_of w inventory) product quantity]>
      (inventories w)
  ∧ result (get_stock inventory product) w'
    = result (get_stock inventory product) w + quantity
  ∧ (∀ other, key other ≠ key product →
       result (get_stock inventory other) w'
       = result (get_stock inventory other) w)
  ∧ databases w'
    = <[database := supplies_of w database
                    ++ [(Product.name product, quantity)]]> (databases w)
  ∧ supplies_of w' database
    = supplies_of w database ++ [(Product.name product, quantity)]
  ∧ stdout w'
    = stdout w
      ++ ["Обработка поставки: " +:+ Product.name product
          +:+ ", количество: " +:+ str quantity;
          "Регистрация поставки: " +:+ Product.name product
          +:+ " x" +:+ str quantity;
          "Проверка наличия товара '" +:+ Product.name product +:+ "': "
          +:+ str (result (get_stock inventory product) w + quantity)
          +:+ " шт.";
          "Данные о поставке сохранены в БД: " +:+ Product.name product
          +:+ " x" +:+ str quantity;
          "Поставка обработана." +:+ LF].
Proof.
  intros inventory database w'. subst w'.
  rewrite process_supply_steps.
  split; [|split; [|split; [|split; [|split]]]].
  - by autorewrite with store.
  - autorewrite with store. by rewrite stock_add_lookup.
  - intros other Hk. autorewrite with store.
    by rewrite stock_add_lookup_ne.
  - by autorewrite with store.
  - by autorewrite with store.
  - autorewrite with store. rewrite stock_add_lookup.
    cbn [default from_option id]. by rewrite <- !app_assoc.
Qed.

Lemma process_supply_effects_witness :
  result (get_stock 0%nat Demo.tshirt)
    (exec (WarehouseFacade.process_supply
             (WarehouseFacade.make 0%nat 1%nat) Demo.tshirt 10)
       Demo.world0) = 10
  ∧ result (get_stock 0%nat Demo.apple)
      (exec (WarehouseFacade.process_supply
               (WarehouseFacade.make 0%nat 1%nat) Demo.tshirt 10)
         Demo.world0)
    = result (get_stock 0%nat Demo.apple) Demo.world0
  ∧ supplies_of
      (exec (WarehouseFacade.process_supply
               (WarehouseFacade.make 0%nat 1%nat) Demo.tshirt 10)
         Demo.world0) 1%nat
    = [("Футболка", 10)].
Proof.
  pose proof (process_supply_effects
                (WarehouseFacade.make 0%nat 1%nat) Demo.tshirt 10
                Demo.world0)
    as (_ & Hstock & Hother & _ & Hrecord & _).
  split; [exact Hstock|]. split; [|exact Hrecord].
  apply Hother. discriminate.
Defined.

Lemma receive_supply_steps (self : Storekeeper.t) (product : Product.t)
    (quantity : Z) (w : World) :
  exec (Storekeeper.receive_supply self product quantity) w
  = exec (WarehouseFacade.process_supply
            (Storekeeper.facade self) product quantity)
      (exec (ProductReceivingProcess.receive_product
               (Storekeeper.receiving_process self) product quantity)
         (exec (print "Кладовщик начинает приём поставки...") w)).
Proof.
  unfold Storekeeper.receive_supply, exec, bind. simpl.
  by destruct (ProductReceivingProcess.receive_product _ _ _ _).
Qed.

(** C9.  A storekeeper whose facade and receiving process hold the same
    inventory, as [main] builds it, counts a supply with a positive
    quantity twice: the receiving process raises the stock of the product
    by the quantity, the facade then raises it by the quantity again, so
    the stock ends two quantities higher.  The other entries keep their
    value and the database gains the single record (name, quantity). *)
Theorem receive_supply_counts_twice
    (inventory : Inventory.t) (database : Database.t)
    (product : Product.t) (quantity : Z) (w : World) :
  0 < quantity →
  let self :=
    Storekeeper.make
      (WarehouseFacade.make inventory database)
      (StorekeeperReceivingProcess.upcast
         (StorekeeperReceivingProcess.make inventory)) in
  let received :=
    exec (StorekeeperReceivingProcess.receive_product
            (StorekeeperReceivingProcess.make inventory) product quantity)
      (exec (print "Кладовщик начинает приём поставки...") w) in
  let w' := exec (Storekeeper.receive_supply self product quantity) w in
  result (get_stock inventory product) w'
  = result (get_stock inventory product) w + 2 * quantity
  ∧ result (get_stock inventory product) received
    = result (get_stock inventory product) w + quantity
  ∧ w' = exec (WarehouseFacade.process_supply
                 (Storekeeper.facade self) product quantity) received
  ∧ result (get_stock inventory product) w'
    = result (get_stock inventory product) received + quantity
  ∧ (∀ other, key other ≠ key product →
       result (get_stock inventory other) w'
       = result (get_stock inventory other) w)
  ∧ databases w'
    = <[database := supplies_of w database
                    ++ [(Product.name product, quantity)]]> (databases w)
  ∧ supplies_of w' database
    = supplies_of w database ++ [(Product.name product, quantity)].
Proof.
  intros Hq self received w'. subst self received w'.
  rewrite receive_supply_steps. cbn [Storekeeper.facade
    Storekeeper.receiving_process].
  change (ProductReceivingProcess.receive_product
            (StorekeeperReceivingProcess.upcast ?p))
    with (StorekeeperReceivingProcess.receive_product p).
  rewrite process_supply_steps, receive_product_passed by done.
  cbn [WarehouseFacade.inventory WarehouseFacade.database].
  split; [|split; [|split; [|split; [|split; [|split]]]]].
  - autorewrite with store. cbn [WarehouseFacade.inventory].
    autorewrite with store. rewrite !stock_add_lookup.
    cbn [default from_option id]. lia.
  - autorewrite with store. by rewrite stock_add_lookup.
  - reflexivity.
  - autorewrite with store. cbn [WarehouseFacade.inventory].
    autorewrite with store. by rewrite !stock_add_lookup.
  - intros other Hk. autorewrite with store. cbn [WarehouseFacade.inventory].
    autorewrite with store. by rewrite !stock_add_lookup_ne.
  - by autorewrite with store.
  - by autorewrite with store.
Qed.

Lemma receive_supply_counts_twice_witness :
  result (get_stock 0%nat Demo.tshirt)
    (exec (Storekeeper.receive_supply
             (Storekeeper.make
                (WarehouseFacade.make 0%nat 0%nat)
                (StorekeeperReceivingProcess.upcast
                   (StorekeeperReceivingProcess.make 0%nat)))
             Demo.tshirt 10)
       Demo.world0)
  = result (get_stock 0%nat Demo.tshirt) Demo.world0 + 2 * 10.
Proof.
  apply (receive_supply_counts_twice 0%nat 0%nat Demo.tshirt 10 Demo.world0).
  lia.
Defined.

(** When the two hold different inventories, each is raised once. *)
Lemma receive_supply_separate_inventories
    (received stored : Inventory.t) (database : Database.t)
    (product : Product.t) (quantity : Z) (w : World) :
  0 < quantity → received ≠ stored →
  let self :=
    Storekeeper.make
      (WarehouseFacade.make stored database)
      (StorekeeperReceivingProcess.upcast
         (StorekeeperReceivingProcess.make received)) in
  let w' := exec (Storekeeper.receive_supply self product quantity) w in
  result (get_stock received product) w'
  = result (get_stock received product) w + quantity
  ∧ result (get_stock stored product) w'
    = result (get_stock stored product) w + quantity.
Proof.
  intros Hq Hne self w'. subst self w'.
  rewrite receive_supply_steps. cbn [Storekeeper.facade
    Storekeeper.receiving_process].
  change (ProductReceivingProcess.receive_product
            (StorekeeperReceivingProcess.upcast ?p))
    with (StorekeeperReceivingProcess.receive_product p).
  rewrite process_supply_steps, receive_product_passed by done.
  cbn [WarehouseFacade.inventory WarehouseFacade.database].
  split; autorewrite with store; cbn [WarehouseFacade.inventory].
  - rewrite (stock_of_add_stock_ne stored received) by done.
    autorewrite with store. by rewrite stock_add_lookup.
  - autorewrite with store.
    rewrite (stock_of_add_stock_ne received stored) by done.
    autorewrite with store. by rewrite stock_add_lookup.
Qed.

(** What [main] leaves in the inventory and the database after its three
    supplies and the update of the administrator. *)
Example main_stock :
  let inventory := 0%nat in
  let database := 0%nat in
  let storekeeper :=
    Storekeeper.make
      (WarehouseFacade.make inventory database)
      (StorekeeperReceivingProcess.upcast
         (StorekeeperReceivingProcess.make inventory)) in
  let w :=
    exec (Storekeeper.receive_supply storekeeper Demo.tshirt 10 ;;;
          Storekeeper.receive_supply storekeeper Demo.laptop 5 ;;;
          Storekeeper.receive_supply storekeeper Demo.apple 100 ;;;
          Administrator.update_stock
            (Administrator.make inventory) Demo.tshirt 5)
      Demo.world0 in
  result (get_stock inventory Demo.tshirt) w = 25
  ∧ result (get_stock inventory Demo.laptop) w = 10
  ∧ result (get_stock inventory Demo.apple) w = 200
  ∧ supplies_of w database
    = [("Футболка", 10); ("Ноутбук", 5); ("Яблоко", 100)].
Proof. vm_compute. repeat split. Qed.

End Supply.

(** * Further properties *)

(** ** Ledger entries *)

Section LedgerEntries.

Import Inventory.

Lemma world_eq (w1 w2 : World) :
  inventories w1 = inventories w2 → databases w1 = databases w2 →
  stdout w1 = stdout w2 → w1 = w2.
Proof. destruct w1, w2. simpl. by intros -> -> ->. Qed.

Lemma get_type_class (p1 p2 : Product.t) :
  Product.get_type p1 = Product.get_type p2 ↔ Product.class p1 = Product.class p2.
Proof.
  unfold Product.get_type. split.
  - by destruct (Product.class p1), (Product.class p2).
  - by intros ->.
Qed.

Lemma key_eq (p1 p2 : Product.t) :
  key p1 = key p2
  ↔ Product.class p1 = Product.class p2 ∧ Product.name p1 = Product.name p2.
Proof.
  unfold key. rewrite <- get_type_class. split.
  - by intros [= -> ->].
  - by intros [-> ->].
Qed.

(** The ledger entry of a product is fixed by its class and its name; the
    price plays no part.  So [add_stock] for one product raises what
    [get_stock] returns for every product of the same class and name, and
    for no other product. *)
Theorem ledger_entry_by_class_and_name
    (self : t) (product other : Product.t) (quantity : Z) (w : World) :
  (Product.class other = Product.class product →
   Product.name other = Product.name product →
   result (get_stock self other) (exec (add_stock self product quantity) w)
   = result (get_stock self other) w + quantity)
  ∧ (Product.class other ≠ Product.class product
     ∨ Product.name other ≠ Product.name product →
     result (get_stock self other) (exec (add_stock self product quantity) w)
     = result (get_stock self other) w).
Proof.
  split.
  - intros Hclass Hname.
    assert (Hkey : key other = key product) by by apply key_eq.
    autorewrite with store. by rewrite Hkey, stock_add_lookup.
  - intros Hne. apply get_stock_add_stock_ne.
    rewrite key_eq. intros [Hclass Hname]. by destruct Hne.
Qed.

Lemma ledger_entry_by_class_and_name_witness :
  result (get_stock 0%nat (Clothing "Футболка" 700))
    (exec (add_stock 0%nat Demo.tshirt 10) Demo.world0)
  = result (get_stock 0%nat (Clothing "Футболка" 700)) Demo.world0 + 10
  ∧ result (get_stock 0%nat (Clothing "Яблоко" 50))
      (exec (add_stock 0%nat Demo.apple 100) Demo.world0)
    = result (get_stock 0%nat (Clothing "Яблоко" 50)) Demo.world0.
Proof.
  split.
  - by apply (proj1 (ledger_entry_by_class_and_name
                       0%nat Demo.tshirt (Clothing "Футболка" 700) 10
                       Demo.world0)).
  - apply (proj2 (ledger_entry_by_class_and_name
                    0%nat Demo.apple (Clothing "Яблоко" 50) 100 Demo.world0)).
    left. discriminate.
Defined.

Lemma stock_add_twice (stock : Stock) (product : Product.t) (q1 q2 : Z) :
  stock_add (stock_add stock product q1) product q2
  = stock_add stock product (q1 + q2).
Proof.
  unfold stock_add. rewrite lookup_insert_eq, insert_insert_eq. simpl.
  f_equal. lia.
Qed.

Lemma stock_add_commute (stock : Stock) (p1 p2 : Product.t) (q1 q2 : Z) :
  key p1 ≠ key p2 →
  stock_add (stock_add stock p1 q1) p2 q2
  = stock_add (stock_add stock p2 q2) p1 q1.
Proof.
  intros Hne. unfold stock_add.
  rewrite !lookup_insert_ne by done. by apply insert_insert_ne.
Qed.

(** Two calls of [add_stock] for one product leave the store as one call
    with the sum of the quantities does, and calls for products with
    different entries can be swapped. *)
Theorem add_stock_accumulates
    (self : t) (product : Product.t) (q1 q2 : Z) (w : World) :
  exec (add_stock self product q2) (exec (add_stock self product q1) w)
  = exec (add_stock self product (q1 + q2)) w
  ∧ (∀ other, key other ≠ key product →
       exec (add_stock self other q2) (exec (add_stock self product q1) w)
       = exec (add_stock self product q1) (exec (add_stock self other q2) w)).
Proof.
  split.
  - apply world_eq; autorewrite with store; [|done..].
    by rewrite insert_insert_eq, stock_add_twice.
  - intros other Hne. apply world_eq; autorewrite with store; [|done..].
    rewrite !insert_insert_eq. f_equal. by apply stock_add_commute.
Qed.

Lemma add_stock_accumulates_witness :
  exec (add_stock 0%nat Demo.apple 5) (exec (add_stock 0%nat Demo.apple 100)
                                         Demo.world0)
  = exec (add_stock 0%nat Demo.apple (100 + 5)) Demo.world0
  ∧ exec (add_stock 0%nat Demo.laptop 5)
      (exec (add_stock 0%nat Demo.apple 100) Demo.world0)
    = exec (add_stock 0%nat Demo.apple 100)
        (exec (add_stock 0%nat Demo.laptop 5) Demo.world0).
Proof.
  split.
  - exact (proj1 (add_stock_accumulates 0%nat Demo.apple 100 5 Demo.world0)).
  - apply (proj2 (add_stock_accumulates 0%nat Demo.apple 100 5 Demo.world0)).
    discriminate.
Defined.

(** [add_stock] never drops an entry: afterwards the dict holds the keys it
    held plus the key of the product, also when the quantity brings the
    entry to zero.  Adding a quantity and then its opposite gives back what
    [get_stock] returned for every product. *)
Theorem add_stock_keeps_entries
    (self : t) (product : Product.t) (quantity : Z) (w : World) :
  dom (stock_of (exec (add_stock self product quantity) w) self)
  = {[key product]} ∪ dom (stock_of w self)
  ∧ ∀ other,
      result (get_stock self other)
        (exec (add_stock self product (- quantity))
           (exec (add_stock self product quantity) w))
      = result (get_stock self other) w.
Proof.
  split.
  - rewrite stock_of_add_stock. unfold stock_add. apply dom_insert_L.
  - intros other. autorewrite with store. rewrite stock_add_twice.
    destruct (decide (key other = key product)) as [->|Hne].
    + rewrite stock_add_lookup. simpl. lia.
    + by rewrite stock_add_lookup_ne.
Qed.

End LedgerEntries.

(** ** The administrator, the stock check and the database log *)

Section Collaborators.

Import Inventory.

Lemma exec_update_stock (self : Administrator.t) (product : Product.t)
    (quantity : Z) (w : World) :
  exec (Administrator.update_stock self product quantity) w
  = exec (add_stock (Administrator.inventory self) product quantity)
      (exec (print ("Администратор обновляет данные о наличии товара: "
                    +:+ Product.name product +:+ " x" +:+ str quantity)) w).
Proof. reflexivity. Qed.

(** [Administrator.update_stock] adds any quantity, negative ones included,
    to the entry of the product, prints one line and writes nothing to any
    database: the update leaves no supply record. *)
Theorem update_stock_effects
    (self : Administrator.t) (product : Product.t) (quantity : Z)
    (w : World) :
  inventories (exec (Administrator.update_stock self product quantity) w)
  = <[Administrator.inventory self :=
        stock_add (stock_of w (Administrator.inventory self))
          product quantity]> (inventories w)
  ∧ result (get_stock (Administrator.inventory self) product)
      (exec (Administrator.update_stock self product quantity) w)
    = result (get_stock (Administrator.inventory self) product) w + quantity
  ∧ databases (exec (Administrator.update_stock self product quantity) w)
    = databases w
  ∧ stdout (exec (Administrator.update_stock self product quantity) w)
    = stdout w
      ++ ["Администратор обновляет данные о наличии товара: "
          +:+ Product.name product +:+ " x" +:+ str quantity].
Proof.
  rewrite exec_update_stock.
  split; [|split; [|split]]; autorewrite with store; [done| |done..].
  by rewrite stock_add_lookup.
Qed.

(** [WarehouseFacade.check_inventory], and with it
    [Storekeeper.check_product_availability], only reads: it prints one line
    holding the current stock of the product and leaves every inventory and
    database as it was; a missing entry is reported as 0. *)
Theorem check_inventory_only_reads
    (self : Storekeeper.t) (product : Product.t) (w : World) :
  exec (Storekeeper.check_product_availability self product) w
  = exec (WarehouseFacade.check_inventory (Storekeeper.facade self) product) w
  ∧ inventories
      (exec (WarehouseFacade.check_inventory (Storekeeper.facade self)
               product) w)
    = inventories w
  ∧ databases
      (exec (WarehouseFacade.check_inventory (Storekeeper.facade self)
               product) w)
    = databases w
  ∧ stdout
      (exec (WarehouseFacade.check_inventory (Storekeeper.facade self)
               product) w)
    = stdout w
      ++ ["Проверка наличия товара '" +:+ Product.name product +:+ "': "
          +:+ str (default 0
                     (stock_of w
                        (WarehouseFacade.inventory (Storekeeper.facade self))
                      !! key product))
          +:+ " шт."].
Proof.
  split; [reflexivity|].
  split; [|split]; by autorewrite with store.
Qed.

Lemma supplies_of_save_supply_ne (self l : Database.t) (product : Product.t)
    (quantity : Z) (w : World) :
  l ≠ self →
  supplies_of (exec (Database.save_supply self product quantity) w) l
  = supplies_of w l.
Proof.
  intros Hl. unfold supplies_of. rewrite databases_save_supply.
  by rewrite lookup_insert_ne.
Qed.

(** The log of a database only grows at its end: [save_supply] appends the
    record (name, quantity), whatever the quantity, keeps every earlier
    record at its index, and touches no other database and no inventory. *)
Theorem save_supply_appends
    (self : Database.t) (product : Product.t) (quantity : Z) (w : World) :
  supplies_of (exec (Database.save_supply self product quantity) w) self
  = supplies_of w self ++ [(Product.name product, quantity)]
  ∧ (∀ i record,
       supplies_of w self !! i = Some record →
       supplies_of (exec (Database.save_supply self product quantity) w) self
       !! i = Some record)
  ∧ (∀ l, l ≠ self →
       supplies_of (exec (Database.save_supply self product quantity) w) l
       = supplies_of w l)
  ∧ inventories (exec (Database.save_supply self product quantity) w)
    = inventories w.
Proof.
  split; [apply supplies_of_save_supply|].
  split; [|split; [|reflexivity]].
  - intros i record Hi. rewrite supplies_of_save_supply.
    by apply lookup_app_l_Some.
  - intros l Hl. by apply supplies_of_save_supply_ne.
Qed.

Lemma save_supply_appends_witness :
  supplies_of
    (exec (Database.save_supply 0%nat Demo.laptop 5)
       (exec (Database.save_supply 0%nat Demo.tshirt 10) Demo.world0))
    0%nat !! 0%nat
  = Some ("Футболка", 10)
  ∧ supplies_of
      (exec (Database.save_supply 0%nat Demo.laptop 5) Demo.world0) 1%nat
    = supplies_of Demo.world0 1%nat.
Proof.
  pose proof (save_supply_appends 0%nat Demo.laptop 5
                (exec (Database.save_supply 0%nat Demo.tshirt 10)
                   Demo.world0)) as (_ & Hkept & _).
  pose proof (save_supply_appends 0%nat Demo.laptop 5 Demo.world0)
    as (_ & _ & Hother & _).
  split.
  - apply Hkept. reflexivity.
  - apply Hother. discriminate.
Defined.

Lemma stock_add_key (stock : Stock) (p1 p2 : Product.t) (quantity : Z) :
  key p1 = key p2 → stock_add stock p1 quantity = stock_add stock p2 quantity.
Proof. intros Hkey. unfold stock_add. by rewrite Hkey. Qed.

(** Two supplies processed one after the other through the facade leave
    their records in the order of the calls, and the stock of the first
    product ends raised by its quantity, and by the second quantity as well
    when the second product has the same ledger entry. *)
Theorem process_supply_twice
    (self : WarehouseFacade.t) (p1 p2 : Product.t) (q1 q2 : Z) (w : World) :
  supplies_of
    (exec (WarehouseFacade.process_supply self p2 q2)
       (exec (WarehouseFacade.process_supply self p1 q1) w))
    (WarehouseFacade.database self)
  = supplies_of w (WarehouseFacade.database self)
    ++ [(Product.name p1, q1); (Product.name p2, q2)]
  ∧ result (get_stock (WarehouseFacade.inventory self) p1)
      (exec (WarehouseFacade.process_supply self p2 q2)
         (exec (WarehouseFacade.process_supply self p1 q1) w))
    = result (get_stock (WarehouseFacade.inventory self) p1) w + q1
      + (if decide (key p2 = key p1) then q2 else 0).
Proof.
  rewrite !process_supply_steps. split.
  - autorewrite with store. by rewrite <- app_assoc.
  - autorewrite with store. case_decide as Hkey.
    + rewrite (stock_add_key _ p2 p1) by done.
      rewrite !stock_add_lookup. simpl. lia.
    + rewrite stock_add_lookup_ne by done. rewrite stock_add_lookup.
      simpl. lia.
Qed.

End Collaborators.

(** ** A supply that fails the check *)

Section RejectedSupply.

Import Inventory.

(** [Storekeeper.receive_supply] does not look at the outcome of the
    receiving process.  With a quantity that is zero or negative the check
    fails and nothing is stored by the process, yet the facade goes on: the
    stock of its inventory changes by the quantity (it drops for a negative
    one) and the record (name, quantity) is appended to the database. *)
Theorem receive_supply_ignores_failed_check
    (received stored : Inventory.t) (database : Database.t)
    (product : Product.t) (quantity : Z) (w : World) :
  quantity ≤ 0 →
  let self :=
    Storekeeper.make
      (WarehouseFacade.make stored database)
      (StorekeeperReceivingProcess.upcast
         (StorekeeperReceivingProcess.make received)) in
  let w' := exec (Storekeeper.receive_supply self product quantity) w in
  inventories w'
  = <[stored := stock_add (stock_of w stored) product quantity]>
      (inventories w)
  ∧ result (get_stock stored product) w'
    = result (get_stock stored product) w + quantity
  ∧ supplies_of w' database
    = supplies_of w database ++ [(Product.name product, quantity)]
  ∧ stdout w'
    = stdout w
      ++ ["Кладовщик начинает приём поставки...";
          "Сканирование товара: " +:+ Product.name product;
          "Проверка не пройдена: количество должно быть положительным";
          "Ошибка при приёме товара.";
          "Обработка поставки: " +:+ Product.name product
          +:+ ", количество: " +:+ str quantity;
          "Регистрация поставки: " +:+ Product.name product
          +:+ " x" +:+ str quantity;
          "Проверка наличия товара '" +:+ Product.name product +:+ "': "
          +:+ str (result (get_stock stored product) w + quantity)
          +:+ " шт.";
          "Данные о поставке сохранены в БД: " +:+ Product.name product
          +:+ " x" +:+ str quantity;
          "Поставка обработана." +:+ LF].
Proof.
  intros Hq self w'. subst self w'.
  rewrite receive_supply_steps.
  cbn [Storekeeper.facade Storekeeper.receiving_process].
  change (ProductReceivingProcess.receive_product
            (StorekeeperReceivingProcess.upcast ?p))
    with (StorekeeperReceivingProcess.receive_product p).
  rewrite process_supply_steps, receive_product_failed by done.
  cbn [WarehouseFacade.inventory WarehouseFacade.database].
  split; [|split; [|split]].
  - autorewrite with store. cbn [WarehouseFacade.inventory].
    by autorewrite with store.
  - autorewrite with store. cbn [WarehouseFacade.inventory].
    autorewrite with store. by rewrite stock_add_lookup.
  - by autorewrite with store.
  - autorewrite with store. cbn [WarehouseFacade.inventory].
    autorewrite with store. rewrite stock_add_lookup.
    cbn [default from_option id]. by rewrite <- !app_assoc.
Qed.

Lemma receive_supply_ignores_failed_check_witness :
  result (get_stock 0%nat Demo.tshirt)
    (exec (Storekeeper.receive_supply
             (Storekeeper.make
                (WarehouseFacade.make 0%nat 0%nat)
                (StorekeeperReceivingProcess.upcast
                   (StorekeeperReceivingProcess.make 0%nat)))
             Demo.tshirt (-3))
       Demo.world0)
  = result (get_stock 0%nat Demo.tshirt) Demo.world0 + -3
  ∧ supplies_of
      (exec (Storekeeper.receive_supply
               (Storekeeper.make
                  (WarehouseFacade.make 0%nat 0%nat)
                  (StorekeeperReceivingProcess.upcast
                     (StorekeeperReceivingProcess.make 0%nat)))
               Demo.tshirt (-3))
         Demo.world0) 0%nat
    = supplies_of Demo.world0 0%nat ++ [("Футболка", -3)].
Proof.
  assert (Hq : -3 ≤ 0) by lia.
  pose proof (receive_supply_ignores_failed_check
                0%nat 0%nat 0%nat Demo.tshirt (-3) Demo.world0 Hq)
    as (_ & Hstock & Hlog & _).
  split; [exact Hstock | exact Hlog].
Defined.

End RejectedSupply.

(** ** Growing and shrinking a group *)

Section GroupChildren.

Import ProductComponent.

Lemma eq_refl_component (c : t) : eq c c = true.
Proof. unfold eq. apply Nat.eqb_refl. Qed.

Lemma get_price_group (self : loc) (name : string) (children : list t) :
  get_price (ProductGroup self name children)
  = sum_ints (get_price <$> children).
Proof. cbn [get_price]. by rewrite fold_left_add, Z.add_0_l. Qed.

Lemma leaves_group_app (self : loc) (name : string) (l1 l2 : list t) :
  leaves (ProductGroup self name (l1 ++ l2))
  = leaves (ProductGroup self name l1) ++ leaves (ProductGroup self name l2).
Proof. cbn [leaves]. by rewrite map_app, concat_app. Qed.

(** [add] on a group puts the component after the children already there:
    the price of the group rises by the price of the component, and the
    leaves and the report lines of the component come last. *)
Theorem add_appends_component
    (self : loc) (name : string) (children : list t) (component : t) :
  add (ProductGroup self name children) component
  = Return (ProductGroup self name (children ++ [component]))
  ∧ get_price (ProductGroup self name (children ++ [component]))
    = get_price (ProductGroup self name children) + get_price component
  ∧ leaves (ProductGroup self name (children ++ [component]))
    = leaves (ProductGroup self name children) ++ leaves component
  ∧ ReportVisitor.lines_of (ProductGroup self name (children ++ [component]))
    = ReportVisitor.lines_of (ProductGroup self name children)
      ++ ReportVisitor.lines_of component.
Proof.
  assert (Hleaves : leaves (ProductGroup self name (children ++ [component]))
    = leaves (ProductGroup self name children) ++ leaves component).
  { rewrite leaves_group_app. f_equal. cbn [leaves]. simpl.
    by rewrite app_nil_r. }
  split; [reflexivity|]. split; [|split; [exact Hleaves|]].
  - rewrite !get_price_group, fmap_app, sum_ints_app.
    unfold sum_ints at 2. simpl. lia.
  - by rewrite !lines_of_leaves, Hleaves, fmap_app.
Qed.

(** Removing a component right after adding it gives the group back,
    provided the component was not a child before.  When it already was a
    child, the earlier occurrence is the one removed and the added one stays
    at the end. *)
Theorem remove_after_add
    (self : loc) (name : string) (children : list t) (component : t) :
  ((∀ c, c ∈ children → eq c component = false) →
   remove (ProductGroup self name (children ++ [component])) component
   = Return (ProductGroup self name children))
  ∧ (∀ before c after,
       children = before ++ c :: after →
       eq c component = true →
       (∀ b, b ∈ before → eq b component = false) →
       remove (ProductGroup self name (children ++ [component])) component
       = Return (ProductGroup self name (before ++ after ++ [component]))).
Proof.
  split.
  - intros Habsent. cbn [remove].
    rewrite (list_remove_first eq component component children [])
      by (done || apply eq_refl_component).
    by rewrite app_nil_r.
  - intros before c after -> Hc Hbefore. cbn [remove].
    rewrite <- app_assoc. cbn [app].
    by rewrite (list_remove_first eq component c before
                  (after ++ [component])).
Qed.

Lemma remove_after_add_witness :
  remove
    (ProductGroup 4%nat "Коробка 2"
       ([SingleProduct 5%nat Demo.laptop] ++ [SingleProduct 2%nat Demo.tshirt]))
    (SingleProduct 2%nat Demo.tshirt)
  = Return Demo.box2
  ∧ remove
      (ProductGroup 4%nat "Коробка 2"
         ([SingleProduct 5%nat Demo.laptop; SingleProduct 3%nat Demo.apple]
          ++ [SingleProduct 5%nat Demo.laptop]))
      (SingleProduct 5%nat Demo.laptop)
    = Return
        (ProductGroup 4%nat "Коробка 2"
           ([] ++ [SingleProduct 3%nat Demo.apple]
            ++ [SingleProduct 5%nat Demo.laptop])).
Proof.
  split.
  - apply (proj1 (remove_after_add 4%nat "Коробка 2"
                    [SingleProduct 5%nat Demo.laptop]
                    (SingleProduct 2%nat Demo.tshirt))).
    intros c Hc. apply list_elem_of_singleton in Hc as ->. reflexivity.
  - apply (proj2 (remove_after_add 4%nat "Коробка 2"
                    [SingleProduct 5%nat Demo.laptop;
                     SingleProduct 3%nat Demo.apple]
                    (SingleProduct 5%nat Demo.laptop))
             [] (SingleProduct 5%nat Demo.laptop)
             [SingleProduct 3%nat Demo.apple]);
      [reflexivity | reflexivity |].
    intros b Hb. by apply elem_of_nil in Hb.
Defined.



End GroupChildren.

(** ** Visitors that are used again *)

Section VisitorsAgain.

Import ProductComponent.


(** The report visitor writes one line for each leaf product and none for a
    group; lines already held by the visitor stay in front; a tree without
    any leaf gives the empty report. *)
Theorem report_one_line_per_leaf (c : t) (visitor : ReportVisitor.t) :
  length (ReportVisitor.lines_of c) = length (leaves c)
  ∧ ReportVisitor.report_lines (accept c visitor)
    = ReportVisitor.report_lines visitor ++ ReportVisitor.lines_of c
  ∧ (leaves c = [] →
     ReportVisitor.get_report (accept c ReportVisitor.init) = "").
Proof.
  split; [|split].
  - by rewrite lines_of_leaves, length_fmap.
  - by rewrite accept_leaves, report_fold, lines_of_leaves.
  - intros Hempty. unfold ReportVisitor.get_report.
    fold (ReportVisitor.lines_of c). by rewrite lines_of_leaves, Hempty.
Qed.

Lemma report_one_line_per_leaf_witness :
  ReportVisitor.get_report
    (accept (ProductGroup 1%nat "Партия" [ProductGroup 2%nat "Коробка" []])
       ReportVisitor.init)
  = "".
Proof.
  apply (report_one_line_per_leaf
           (ProductGroup 1%nat "Партия" [ProductGroup 2%nat "Коробка" []])
           ReportVisitor.init).
  reflexivity.
Defined.

Lemma accept_all_leaves {V} `{ProductVisitor V} (components : list t)
    (visitor : V) :
  fold_left (λ visitor component, accept component visitor) components visitor
  = fold_left Product.visit (concat (leaves <$> components)) visitor.
Proof.
  revert visitor. induction components as [|c l IH]; intros visitor; [done|].
  rewrite fmap_cons, concat_cons, fold_left_app, <- accept_leaves.
  apply IH.
Qed.

(** [WarehouseManager.generate_report] prints its heading and then one
    report for all the components: the lines of their leaves in list order,
    the same text as the report of a single group holding the components.
    It changes no inventory and no database. *)
Theorem generate_report_output
    (self : WarehouseManager.t) (components : list t) (w : World) :
  stdout (exec (WarehouseManager.generate_report self components) w)
  = stdout w
    ++ ["Менеджер формирует отчёт по складу:";
        join LF (ReportVisitor.line <$> concat (leaves <$> components))]
  ∧ (∀ group name,
       join LF (ReportVisitor.line <$> concat (leaves <$> components))
       = ReportVisitor.get_report
           (accept (ProductGroup group name components) ReportVisitor.init))
  ∧ inventories (exec (WarehouseManager.generate_report self components) w)
    = inventories w
  ∧ databases (exec (WarehouseManager.generate_report self components) w)
    = databases w.
Proof.
  assert (Hexec : exec (WarehouseManager.generate_report self components) w
    = exec (print (join LF
                     (ReportVisitor.line <$> concat (leaves <$> components))))
        (exec (print "Менеджер формирует отчёт по складу:") w)).
  { unfold WarehouseManager.generate_report. rewrite bind_exec.
    unfold ReportVisitor.get_report.
    by rewrite accept_all_leaves, report_fold. }
  rewrite Hexec. split; [|split; [|split]].
  - autorewrite with store. by rewrite <- app_assoc.
  - intros group name. unfold ReportVisitor.get_report.
    fold (ReportVisitor.lines_of (ProductGroup group name components)).
    by rewrite lines_of_leaves.
  - by autorewrite with store.
  - by autorewrite with store.
Qed.

End VisitorsAgain.

(** ** Orders *)

Section Orders.

Import OrderBuilder.

Lemma build_fold (ps : list Product.t) (b : t) :
  build (fold_left add_product ps b)
  = Order.make (Order.products (build b) ++ ps) (Order.packaging (build b)).
Proof.
  revert b. induction ps as [|p ps IH]; intros b.
  - simpl. rewrite app_nil_r. by destruct b as [[]].
  - cbn [fold_left]. rewrite IH. simpl. by rewrite <- app_assoc.
Qed.

(** A builder keeps what it was given: products added one after the other
    come out of [build] behind the ones already there, in the order of the
    calls, and [build] resets nothing.  The label set last is the one kept,
    and setting the label before or after adding a product makes no
    difference. *)
Theorem builder_accumulates (b : t) (ps : list Product.t) :
  build (fold_left add_product ps b)
  = Order.make (Order.products (build b) ++ ps) (Order.packaging (build b))
  ∧ build (fold_left add_product ps init) = Order.make ps None
  ∧ (∀ first second,
       set_packaging (set_packaging b first) second = set_packaging b second)
  ∧ (∀ label p,
       set_packaging (add_product b p) label
       = add_product (set_packaging b label) p).
Proof.
  split; [apply build_fold|]. split; [|split].
  - by rewrite build_fold.
  - reflexivity.
  - reflexivity.
Qed.

(** The text of an order shows the names of its products only, so two
    orders whose products have the same names in the same order print
    alike; and an order without packaging prints as one whose label is the
    word None. *)
Theorem order_str_shows_names (ps : list Product.t) :
  (∀ ps' packaging,
     Product.name <$> ps = Product.name <$> ps' →
     Order_str (Order.make ps packaging) = Order_str (Order.make ps' packaging))
  ∧ Order_str (Order.make ps None) = Order_str (Order.make ps (Some "None"))
  ∧ Order_str (Order.make ps None)
    = "Заказ: [" +:+ join ", " (Product.name <$> ps)
      +:+ "], Упаковка: None".
Proof.
  split; [|split]; [|reflexivity..].
  intros ps' packaging Hnames. unfold Order_str. simpl. by rewrite Hnames.
Qed.

Lemma order_str_shows_names_witness :
  Order_str (Order.make [Demo.tshirt; Demo.apple] (Some "Коробка №1"))
  = Order_str
      (Order.make [Electronics "Футболка" 1; Clothing "Яблоко" 2]
         (Some "Коробка №1")).
Proof.
  apply (order_str_shows_names [Demo.tshirt; Demo.apple]). reflexivity.
Defined.

End Orders.

(** ** The factory, read backwards *)

Section FactoryBackwards.

Import ProductFactory.

Lemma create_product_Return (kind name : string) (price : Z) (p : Product.t) :
  create_product kind name price = Return p →
  (kind = "clothing" ∧ p = Clothing name price)
  ∨ (kind = "electronics" ∧ p = Electronics name price)
  ∨ (kind = "food" ∧ p = Food name price).
Proof.
  unfold create_product.
  destruct (String.eqb_spec kind "clothing") as [->|_];
    [intros [= <-]; by left|].
  destruct (String.eqb_spec kind "electronics") as [->|_];
    [intros [= <-]; right; by left|].
  destruct (String.eqb_spec kind "food") as [->|_];
    [intros [= <-]; right; by right|].
  discriminate.
Qed.

(** A product that came out of the factory tells which call made it: the
    tag was one of the three, and the tag, the name and the price can be
    read back from the class, the name and the price of the product.  So no
    two different calls return the same product. *)
Theorem create_product_injective
    (kind kind' name name' : string) (price price' : Z) (p : Product.t) :
  create_product kind name price = Return p →
  (kind = "clothing" ∧ Product.class p = Product.Clothing
   ∨ kind = "electronics" ∧ Product.class p = Product.Electronics
   ∨ kind = "food" ∧ Product.class p = Product.Food)
  ∧ Product.name p = name ∧ Product.price p = price
  ∧ (create_product kind' name' price' = Return p →
     kind' = kind ∧ name' = name ∧ price' = price).
Proof.
  intros Hp. pose proof (create_product_Return _ _ _ _ Hp) as Hcase.
  split; [|split; [|split]].
  - destruct Hcase as [[-> ->]|[[-> ->]|[-> ->]]]; auto.
  - by destruct Hcase as [[_ ->]|[[_ ->]|[_ ->]]].
  - by destruct Hcase as [[_ ->]|[[_ ->]|[_ ->]]].
  - intros Hp'. apply create_product_Return in Hp'.
    destruct Hcase as [[-> ->]|[[-> ->]|[-> ->]]];
      destruct Hp' as [[-> [=]]|[[-> [=]]|[-> [=]]]]; by subst.
Qed.

Lemma create_product_injective_witness :
  Product.name Demo.apple = "Яблоко" ∧ Product.price Demo.apple = 50.
Proof.
  assert (Hmade : create_product "food" "Яблоко" 50 = Return Demo.apple)
    by reflexivity.
  pose proof (create_product_injective
                "food" "food" "Яблоко" "Яблоко" 50 50 Demo.apple Hmade)
    as (_ & Hname & Hprice & _).
  split; [exact Hname | exact Hprice].
Defined.

End FactoryBackwards.
